(** * Morpheus graph layer: shallow embedding of src/graph/mod.rs

    The transactional graph operations of [Graph] and [GraphTransaction],
    embedded over an explicit store transaction that records every read,
    write and remove it is asked to perform.  The collaborators that live
    outside graph/mod.rs (the neb cell store and its transaction engine,
    the schema catalog's registration RPC, and the sibling modules
    graph::vertex, graph::edge and graph::id_list) are fields of the
    record [Env], so every theorem below holds for any implementation of
    them. *)

From Stdlib Require Import List Bool PeanoNat NArith String.
Import ListNotations.
Set Warnings "-register-all".

(* ------------------------------------------------------------------ *)
(** ** Results *)

(** Rust's [Result<T, E>]. *)
Inductive result (T E : Type) : Type :=
| Ok (v : T)
| Err (e : E).
Arguments Ok {T E} v.
Arguments Err {T E} e.

(** [Result::map] *)
Definition result_map {T U E} (f : T -> U) (r : result T E) : result U E :=
  match r with Ok v => Ok (f v) | Err e => Err e end.

(** [Result::map_err] *)
Definition map_err {T E F} (f : E -> F) (r : result T E) : result T F :=
  match r with Ok v => Ok v | Err e => Err (f e) end.

(* ------------------------------------------------------------------ *)
(** ** neb data model: ids, values, cells, schemas *)

(** [neb::ram::types::Id]: two 64-bit halves. *)
Record Id := mkId { higher : N; lower : N }.

(** [Id::unit_id()], the null identifier. *)
Definition unit_id : Id := mkId 0 0.

(** [neb::ram::types::Value]; [Map] is keyed by the field's key id. *)
Inductive Value : Type :=
| VNull
| VId (i : Id)
| VU64 (n : N)
| VString (s : string)
| VMap (m : list (N * Value)).

Definition Map := list (N * Value).

(** [Map::get_by_key_id] *)
Fixpoint map_get (k : N) (m : Map) : option Value :=
  match m with
  | [] => None
  | (k', v) :: rest => if N.eqb k k' then Some v else map_get k rest
  end.

(** [Map::insert_key_id]: a hash-map insert, replacing any previous value. *)
Definition insert_key_id (k : N) (v : Value) (m : Map) : Map :=
  (k, v) :: filter (fun p => negb (N.eqb (fst p) k)) m.

(** [neb::ram::schema::Field]: the field layout, kept as its key ids. *)
Definition Field := list N.

(** [neb::ram::schema::Schema] *)
Record Schema := mkSchema {
  schema_id : nat;
  schema_name : string;
  schema_key_field : option (list N);
  schema_fields : Field
}.

(** [Schema::new_with_id] *)
Definition Schema_new_with_id (id : nat) (name : string)
  (key_field : option (list N)) (fields : Field) : Schema :=
  mkSchema id name key_field fields.

(** [neb::ram::cell::{CellHeader, Cell}] *)
Record CellHeader := mkHeader { header_schema : nat; header_id : Id }.
Record Cell := mkCell { header : CellHeader; data : Value }.

(* ------------------------------------------------------------------ *)
(** ** Error types *)

(** [neb::client::transaction::TxnError] *)
Inductive TxnError :=
| NotFound
| Aborted
| NotRealizable
| TooManyRetry
| TxnRPCError (code : nat)
| InternalError (code : nat).

(** [neb::ram::cell::ReadError] *)
Inductive ReadError :=
| CellDoesNotExisted
| ReadOtherError (code : nat).

(** [neb::ram::cell::WriteError] *)
Inductive WriteError :=
| CellAlreadyExisted
| WriteOtherError (code : nat).

(** [bifrost::rpc::RPCError] *)
Inductive RPCError := RPCErrorCode (code : nat).

(** [bifrost::raft::state_machine::master::ExecError] *)
Inductive ExecError := ExecErrorCode (code : nat).

(** [graph::id_list::IdListError] (module not in src/graph/mod.rs); the
    name [IdListError] is taken by the [EdgeError] constructor. *)
Inductive id_list_IdListError := IdListErrorCode (code : nat).

(** Modelled from the spec: [graph::vertex::RemoveError] (graph/vertex is
    not part of the sources); §4.3 "deletes the backing cell after
    existence validation", so a missing vertex is one of its cases. *)
Inductive RemoveError :=
| RemoveNotFound
| RemoveOtherError (code : nat).

(** Modelled from the spec: [graph::edge::EdgeError] (graph/edge is not
    part of the sources).  [IdListError] is the constructor used by
    [neighbourhoods]; the body-presence failures are those of §4.4. *)
Inductive EdgeError :=
| IdListError (e : id_list_IdListError)
| EdgeBodyRequired
| EdgeBodyShouldNotExisted
| EdgeOtherError (code : nat).

(** [NewVertexError] (mod.rs lines 21-29). *)
Inductive NewVertexError :=
| SchemaNotFound
| SchemaNotVertex
| CannotGenerateCellByData
| DataNotMap
| NVRPCError (e : RPCError)
| NVWriteError (e : WriteError).

(** [ReadVertexError] (mod.rs lines 31-35). *)
Inductive ReadVertexError :=
| RVRPCError (e : RPCError)
| RVReadError (e : ReadError).

(** [LinkVerticesError] (mod.rs lines 37-44). *)
Inductive LinkVerticesError :=
| EdgeSchemaNotFound
| SchemaNotEdge
| BodyRequired
| BodyShouldNotExisted
| LVEdgeError (e : EdgeError).

(* ------------------------------------------------------------------ *)
(** ** Schema catalog *)

(** [graph::edge::{EdgeType, EdgeAttributes}] *)
Inductive EdgeType := Directed | Undirected.
Record EdgeAttributes := mkEdgeAttributes {
  edge_type : EdgeType;
  has_body : bool
}.

(** [server::schema::SchemaType] *)
Inductive SchemaType :=
| SVertex
| SEdge (ea : EdgeAttributes).

(** [stype != SchemaType::Vertex] *)
Definition schema_type_ne_vertex (st : SchemaType) : bool :=
  match st with SVertex => false | SEdge _ => true end.

(** [EdgeDirection] (mod.rs lines 52-57). *)
Inductive EdgeDirection := Inbound | Outbound | UndirectedDir.

(** [server::schema::SchemaContainer]: the Morpheus schema types and the
    neb schemas, by schema id. *)
Record SchemaContainer := mkSchemaContainer {
  sc_types : list (nat * SchemaType);
  sc_neb : list (nat * Schema)
}.

Fixpoint assoc_nat {A} (k : nat) (l : list (nat * A)) : option A :=
  match l with
  | [] => None
  | (k', a) :: rest => if Nat.eqb k k' then Some a else assoc_nat k rest
  end.

(** [SchemaContainer::schema_type] *)
Definition schema_type (sc : SchemaContainer) (id : nat) : option SchemaType :=
  assoc_nat id (sc_types sc).

(** [SchemaContainer::get_neb_schema] *)
Definition get_neb_schema (sc : SchemaContainer) (id : nat) : option Schema :=
  assoc_nat id (sc_neb sc).

(* ------------------------------------------------------------------ *)
(** ** Vertices and edges *)

(** Modelled from the spec: [graph::vertex::Vertex] (graph/vertex is not
    part of the sources), §3: schema id, user data and the three adjacency
    handles. *)
Record Vertex := mkVertex {
  v_schema : nat;
  v_data : Value;
  v_inbound : Id;
  v_outbound : Id;
  v_undirected : Id
}.

(** Modelled from the spec: [Vertex::new], §4.3 "create(schema_id, data)
    builds an unsaved vertex with null adjacency handles". *)
Definition Vertex_new (schema_id : nat) (data : Map) : Vertex :=
  mkVertex schema_id (VMap data) unit_id unit_id unit_id.

(** Modelled from the spec: [graph::edge::directed::DirectedEdge] and
    [graph::edge::undirectd::UndirectedEdge], §4.4 step 3: both endpoint
    identifiers and the optional body cell. *)
Record DirectedEdge := mkDirectedEdge {
  de_from : Id; de_to : Id; de_body : option Cell
}.
Record UndirectedEdge := mkUndirectedEdge {
  ue_a : Id; ue_b : Id; ue_body : option Cell
}.

(** [graph::edge::Edge] *)
Inductive Edge :=
| EDirected (e : DirectedEdge)
| EUndirected (e : UndirectedEdge).

(* ------------------------------------------------------------------ *)
(** ** The store transaction *)

(** What a transaction is asked to do, in order. *)
Inductive StoreOp :=
| OpRead (id : Id)
| OpWrite (c : Cell)
| OpRemove (id : Id).

(** [neb::client::transaction::Transaction], observed through the store
    operations issued on it. *)
Record Txn := mkTxn { txn_log : list StoreOp }.

Definition log_op (t : Txn) (op : StoreOp) : Txn := mkTxn (txn_log t ++ [op]).

(** Code running against a bound transaction ([&mut Transaction]). *)
Definition TxnM (A : Type) := Txn -> A * Txn.

Definition ret {A} (a : A) : TxnM A := fun t => (a, t).

Definition bind {A B} (m : TxnM A) (k : A -> TxnM B) : TxnM B :=
  fun t => match m t with (a, t1) => k a t1 end.

Notation "x <- m ;; k" := (bind m (fun x => k))
  (at level 61, m at next level, right associativity).

(** Rust's [?] on the outer [TxnError] layer. *)
Definition try_txn {A B} (m : TxnM (result A TxnError))
  (k : A -> TxnM (result B TxnError)) : TxnM (result B TxnError) :=
  bind m (fun r => match r with Ok a => k a | Err e => ret (Err e) end).

Notation "x <-? m ;; k" := (try_txn m (fun x => k))
  (at level 61, m at next level, right associativity).

(** [K: Serialize] for the by-key operations. *)
Class Serialize (K : Type) := serialize : K -> list N.

(* ------------------------------------------------------------------ *)
(** ** The collaborators of graph/mod.rs *)

Record Env := mkEnv {
  (* neb store: outcome of a transactional read/write/remove given the
     operations already issued in the transaction *)
  read_outcome : list StoreOp -> Id -> result (option Cell) TxnError;
  write_outcome : list StoreOp -> Cell -> result unit TxnError;
  remove_outcome : list StoreOp -> Id -> result unit TxnError;
  (* [NebClient::transaction]: the engine runs the closure (retrying it on
     conflict) and reports the outcome *)
  neb_transaction : forall A, TxnM (result A TxnError) -> result A TxnError;
  (* [NebClient::read_cell] *)
  client_read_cell : Id -> result (result Cell ReadError) RPCError;
  (* [NebClient::new_schema_with_id], mutating the catalog *)
  new_schema_with_id : Schema -> SchemaContainer ->
                       result unit ExecError * SchemaContainer;
  (* [Cell::new] and [Cell::encode_cell_key] *)
  cell_new : Schema -> Value -> option Cell;
  encode_cell_key : nat -> list N -> Id;
  (* graph::vertex *)
  cell_to_vertex : Cell -> Vertex;
  txn_remove : SchemaContainer -> Id ->
               TxnM (result (result unit RemoveError) TxnError);
  txn_update : Id -> (Vertex -> option Vertex) -> TxnM (result unit TxnError);
  (* graph::edge *)
  directed_link : Id -> Id -> option Map -> nat -> SchemaContainer ->
                  TxnM (result (result DirectedEdge EdgeError) TxnError);
  undirected_link : Id -> Id -> option Map -> nat -> SchemaContainer ->
                    TxnM (result (result UndirectedEdge EdgeError) TxnError);
  edge_from_id : Id -> N -> nat -> SchemaContainer -> Id ->
                 TxnM (result (result Edge EdgeError) TxnError);
  (* graph::id_list: [IdList::from_txn_and_container(..).all()] *)
  id_list_all : Id -> N -> nat ->
                TxnM (result (result (list Id) id_list_IdListError) TxnError);
  (* graph::fields and graph::id_list constants *)
  INBOUND_KEY_ID : N;
  OUTBOUND_KEY_ID : N;
  UNDIRECTED_KEY_ID : N;
  ID_LIST_SCHEMA_ID : nat;
  TYPE_LIST_SCHEMA_ID : nat;
  ID_LINKED_LIST : Field;
  ID_TYPE_LIST : Field
}.

(* ------------------------------------------------------------------ *)
(** ** Result shapes of the [GraphTransaction] methods

    Each embedded method below is typed through this table, so Rocq checks
    the table against the method bodies. *)

Inductive GTxnMethod :=
| GT_new_vertex
| GT_remove_vertex
| GT_remove_vertex_by_key
| GT_link
| GT_update_vertex
| GT_update_vertex_by_key
| GT_read_vertex
| GT_get_vertex
| GT_neighbourhoods.

Definition all_gtxn_methods : list GTxnMethod :=
  [GT_new_vertex; GT_remove_vertex; GT_remove_vertex_by_key; GT_link;
   GT_update_vertex; GT_update_vertex_by_key; GT_read_vertex; GT_get_vertex;
   GT_neighbourhoods].

(** [Wrapped T E] is [Result<Result<T, E>, TxnError>];
    [Plain T] is [Result<T, TxnError>]. *)
Inductive ResultShape :=
| Wrapped (T E : Type)
| Plain (T : Type).

Definition shape_type (s : ResultShape) : Type :=
  match s with
  | Wrapped T E => result (result T E) TxnError
  | Plain T => result T TxnError
  end.

Definition double_wrapped (s : ResultShape) : bool :=
  match s with Wrapped _ _ => true | Plain _ => false end.

(** The return types of mod.rs lines 202-278. *)
Definition gtxn_result_shape (m : GTxnMethod) : ResultShape :=
  match m with
  | GT_new_vertex => Wrapped Vertex NewVertexError
  | GT_remove_vertex => Wrapped unit RemoveError
  | GT_remove_vertex_by_key => Wrapped unit RemoveError
  | GT_link => Wrapped Edge LinkVerticesError
  | GT_update_vertex => Plain unit
  | GT_update_vertex_by_key => Plain unit
  | GT_read_vertex => Plain (option Vertex)
  | GT_get_vertex => Plain (option Vertex)
  | GT_neighbourhoods => Wrapped (list Edge) EdgeError
  end.

Definition GTxnResult (m : GTxnMethod) : Type :=
  shape_type (gtxn_result_shape m).

(* ------------------------------------------------------------------ *)
(** ** graph/mod.rs *)

Section Embedding.

Variable env : Env.

(** [Transaction::read / write / remove]: issue the operation on the
    transaction and report the store's outcome. *)
Definition txn_read (id : Id) : TxnM (result (option Cell) TxnError) :=
  fun t => (read_outcome env (txn_log t) id, log_op t (OpRead id)).

Definition txn_write (c : Cell) : TxnM (result unit TxnError) :=
  fun t => (write_outcome env (txn_log t) c, log_op t (OpWrite c)).

Definition txn_remove_cell (id : Id) : TxnM (result unit TxnError) :=
  fun t => (remove_outcome env (txn_log t) id, log_op t (OpRemove id)).

(** [EdgeDirection::as_field] (lines 59-67). *)
Definition as_field (ed : EdgeDirection) : N :=
  match ed with
  | Inbound => INBOUND_KEY_ID env
  | Outbound => OUTBOUND_KEY_ID env
  | UndirectedDir => UNDIRECTED_KEY_ID env
  end.

(** [vertex_to_cell_for_write] (lines 69-95). *)
Definition vertex_to_cell_for_write (schemas : SchemaContainer) (vertex : Vertex)
  : result Cell NewVertexError :=
  let schema_id := v_schema vertex in
  match schema_type schemas schema_id with
  | None => Err SchemaNotFound
  | Some stype =>
    if schema_type_ne_vertex stype then Err SchemaNotVertex else
    match get_neb_schema schemas schema_id with
    | None => Err SchemaNotFound
    | Some neb_schema =>
      match v_data vertex with
      | VMap map =>
        let data := insert_key_id (INBOUND_KEY_ID env) (VId unit_id) map in
        let data := insert_key_id (OUTBOUND_KEY_ID env) (VId unit_id) data in
        let data := insert_key_id (UNDIRECTED_KEY_ID env) (VId unit_id) data in
        match cell_new env neb_schema (VMap data) with
        | Some cell => Ok cell
        | None => Err CannotGenerateCellByData
        end
      | _ => Err DataNotMap
      end
    end
  end.

(** *** [Graph] (lines 97-194) *)

Record Graph := mkGraph { graph_schemas : SchemaContainer }.

(** [Graph::check_schema] (lines 110-122): the catalog is threaded as
    state, since registration mutates it. *)
Definition check_schema (schema_id : nat) (schema_name : string) (fields : Field)
  (schemas : SchemaContainer) : result unit ExecError * SchemaContainer :=
  match get_neb_schema schemas schema_id with
  | None =>
    match new_schema_with_id env
            (Schema_new_with_id schema_id schema_name None fields) schemas with
    | (Err e, s1) => (Err e, s1)
    | (Ok _, s1) => (Ok tt, s1)
    end
  | Some _ => (Ok tt, schemas)
  end.

(** [Graph::check_base_schemas] (lines 123-127). *)
Definition check_base_schemas (schemas : SchemaContainer)
  : result unit ExecError * SchemaContainer :=
  match check_schema (ID_LIST_SCHEMA_ID env) "_NEB_ID_LIST" (ID_LINKED_LIST env)
          schemas with
  | (Err e, s1) => (Err e, s1)
  | (Ok _, s1) =>
    match check_schema (TYPE_LIST_SCHEMA_ID env) "_NEB_TYPE_ID_LIST"
            (ID_TYPE_LIST env) s1 with
    | (Err e, s2) => (Err e, s2)
    | (Ok _, s2) => (Ok tt, s2)
    end
  end.

(** [Graph::new] (lines 103-109). *)
Definition graph_new (schemas : SchemaContainer)
  : result Graph ExecError * SchemaContainer :=
  match check_base_schemas schemas with
  | (Err e, s1) => (Err e, s1)
  | (Ok _, s1) => (Ok (mkGraph s1), s1)
  end.

(** [Graph::graph_transaction] (lines 183-193). *)
Definition graph_transaction (g : Graph)
  (func : SchemaContainer -> TxnM (result unit TxnError)) : result unit TxnError :=
  neb_transaction env unit (fun neb_txn => func (graph_schemas g) neb_txn).

(** *** [GraphTransaction] (lines 196-279); [self.schemas] is [sc]. *)

(** [GraphTransaction::new_vertex] (lines 202-210). *)
Definition gt_new_vertex (sc : SchemaContainer) (schema_id : nat) (data : Map)
  : TxnM (GTxnResult GT_new_vertex) :=
  let vertex := Vertex_new schema_id data in
  match vertex_to_cell_for_write sc vertex with
  | Err e => ret (Ok (Err e))
  | Ok cell =>
    _ <-? txn_write cell ;;
    ret (Ok (Ok (cell_to_vertex env cell)))
  end.

(** [GraphTransaction::remove_vertex] (lines 211-213). *)
Definition gt_remove_vertex (sc : SchemaContainer) (id : Id)
  : TxnM (GTxnResult GT_remove_vertex) :=
  txn_remove env sc id.

(** [GraphTransaction::remove_vertex_by_key] (lines 214-219). *)
Definition gt_remove_vertex_by_key {K} `{Serialize K} (sc : SchemaContainer)
  (schema_id : nat) (key : K) : TxnM (GTxnResult GT_remove_vertex_by_key) :=
  let id := encode_cell_key env schema_id (serialize key) in
  gt_remove_vertex sc id.

(** [GraphTransaction::link] (lines 221-237). *)
Definition gt_link (sc : SchemaContainer) (schema_id : nat) (from_id to_id : Id)
  (body : option Map) : TxnM (GTxnResult GT_link) :=
  match schema_type sc schema_id with
  | Some (SEdge edge_attr) =>
    match edge_type edge_attr with
    | Directed =>
      r <-? directed_link env from_id to_id body schema_id sc ;;
      ret (Ok (result_map EDirected (map_err LVEdgeError r)))
    | Undirected =>
      r <-? undirected_link env from_id to_id body schema_id sc ;;
      ret (Ok (result_map EUndirected (map_err LVEdgeError r)))
    end
  | Some _ => ret (Ok (Err SchemaNotEdge))
  | None => ret (Ok (Err EdgeSchemaNotFound))
  end.

(** [GraphTransaction::update_vertex] (lines 238-241). *)
Definition gt_update_vertex (id : Id) (update : Vertex -> option Vertex)
  : TxnM (GTxnResult GT_update_vertex) :=
  txn_update env id update.

(** [GraphTransaction::update_vertex_by_key] (lines 242-247). *)
Definition gt_update_vertex_by_key {K} `{Serialize K} (schema_id : nat) (key : K)
  (update : Vertex -> option Vertex) : TxnM (GTxnResult GT_update_vertex_by_key) :=
  let id := encode_cell_key env schema_id (serialize key) in
  gt_update_vertex id update.

(** [GraphTransaction::read_vertex] (lines 249-251). *)
Definition gt_read_vertex (id : Id) : TxnM (GTxnResult GT_read_vertex) :=
  c <- txn_read id ;;
  ret (result_map (option_map (cell_to_vertex env)) c).

(** [GraphTransaction::get_vertex] (lines 253-257). *)
Definition gt_get_vertex {K} `{Serialize K} (schema_id : nat) (key : K)
  : TxnM (GTxnResult GT_get_vertex) :=
  let id := encode_cell_key env schema_id (serialize key) in
  gt_read_vertex id.

(** The [for id in ids] loop of [neighbourhoods] (lines 266-275), with
    [edges] the vector built so far. *)
Fixpoint resolve_edges (vertex_id : Id) (vertex_field : N) (schema_id : nat)
  (sc : SchemaContainer) (ids : list Id) (edges : list Edge)
  : TxnM (result (result (list Edge) EdgeError) TxnError) :=
  match ids with
  | [] => ret (Ok (Ok edges))
  | id :: rest =>
    r <-? edge_from_id env vertex_id vertex_field schema_id sc id ;;
    match r with
    | Ok e => resolve_edges vertex_id vertex_field schema_id sc rest (edges ++ [e])
    | Err er => ret (Ok (Err er))
    end
  end.

(** [GraphTransaction::neighbourhoods] (lines 259-278). *)
Definition gt_neighbourhoods (sc : SchemaContainer) (vertex_id : Id)
  (schema_id : nat) (ed : EdgeDirection) : TxnM (GTxnResult GT_neighbourhoods) :=
  let vertex_field := as_field ed in
  r <-? id_list_all env vertex_id vertex_field schema_id ;;
  match r with
  | Err e => ret (Ok (Err (IdListError e)))
  | Ok ids => resolve_edges vertex_id vertex_field schema_id sc ids []
  end.

(** *** [Graph]'s single-vertex operations *)

(** The closure [|txn| txn.remove_vertex(id)?.map_err(|_| TxnError::Aborted)]
    of [Graph::remove_vertex] (line 148). *)
Definition remove_vertex_closure (id : Id) (sc : SchemaContainer)
  : TxnM (result unit TxnError) :=
  r <-? gt_remove_vertex sc id ;;
  ret (map_err (fun _ => Aborted) r).

(** [Graph::remove_vertex] (lines 147-149). *)
Definition graph_remove_vertex (g : Graph) (id : Id) : result unit TxnError :=
  graph_transaction g (remove_vertex_closure id).

(** [Graph::remove_vertex_by_key] (lines 150-154). *)
Definition graph_remove_vertex_by_key {K} `{Serialize K} (g : Graph)
  (schema_id : nat) (key : K) : result unit TxnError :=
  let id := encode_cell_key env schema_id (serialize key) in
  graph_remove_vertex g id.

(** [Graph::update_vertex] (lines 155-160). *)
Definition graph_update_vertex (g : Graph) (id : Id)
  (update : Vertex -> option Vertex) : result unit TxnError :=
  neb_transaction env unit (fun txn => txn_update env id update txn).

(** [Graph::update_vertex_by_key] (lines 161-166). *)
Definition graph_update_vertex_by_key {K} `{Serialize K} (g : Graph)
  (schema_id : nat) (key : K) (update : Vertex -> option Vertex)
  : result unit TxnError :=
  let id := encode_cell_key env schema_id (serialize key) in
  graph_update_vertex g id update.

(** [Graph::read_vertex] (lines 168-175). *)
Definition graph_read_vertex (g : Graph) (id : Id)
  : result (option Vertex) ReadVertexError :=
  match client_read_cell env id with
  | Err e => Err (RVRPCError e)
  | Ok (Err CellDoesNotExisted) => Ok None
  | Ok (Err e) => Err (RVReadError e)
  | Ok (Ok cell) => Ok (Some (cell_to_vertex env cell))
  end.

(** [Graph::get_vertex] (lines 177-181). *)
Definition graph_get_vertex {K} `{Serialize K} (g : Graph) (schema_id : nat)
  (key : K) : result (option Vertex) ReadVertexError :=
  let id := encode_cell_key env schema_id (serialize key) in
  graph_read_vertex g id.

End Embedding.

(* ------------------------------------------------------------------ *)
(** ** Collaborators modelled from the spec *)

(** Modelled from the spec: the precondition checks of [DirectedEdge::link]
    and [UndirectedEdge::link] (graph/edge is not part of the sources),
    §4.4 "Preconditions, checked before any write: schema resolves to an
    Edge schema; body presence matches the schema's requires-body flag".
    [proceed] stands for the write steps 1-3 that follow the checks. *)
Definition spec_edge_link {A} (proceed : TxnM (result (result A EdgeError) TxnError))
  (body : option Map) (schema_id : nat) (sc : SchemaContainer)
  : TxnM (result (result A EdgeError) TxnError) :=
  match schema_type sc schema_id with
  | Some (SEdge ea) =>
    match has_body ea, body with
    | true, None => ret (Ok (Err EdgeBodyRequired))
    | false, Some _ => ret (Ok (Err EdgeBodyShouldNotExisted))
    | _, _ => proceed
    end
  | _ => ret (Ok (Err (EdgeOtherError 0)))
  end.

(** Modelled from the spec: [vertex::txn_remove] (graph/vertex is not part
    of the sources), §4.3 "remove(id): deletes the backing cell after
    existence validation". *)
Definition spec_txn_remove (env : Env) (sc : SchemaContainer) (id : Id)
  : TxnM (result (result unit RemoveError) TxnError) :=
  c <-? txn_read env id ;;
  match c with
  | None => ret (Ok (Err RemoveNotFound))
  | Some _ =>
    _ <-? txn_remove_cell env id ;;
    ret (Ok (Ok tt))
  end.

(** Modelled from the spec: [NebClient::transaction], §6 "transaction(
    closure(txn) -> Result<T, Abort>) -> Result<T, TxnError>": one attempt
    on a fresh transaction whose commit succeeds, reporting the closure's
    outcome. *)
Definition spec_neb_transaction (A : Type) (f : TxnM (result A TxnError))
  : result A TxnError :=
  fst (f (mkTxn [])).

(* ------------------------------------------------------------------ *)
(** ** Concrete collaborators for the witnesses *)

Definition id1 : Id := mkId 0 1.
Definition id2 : Id := mkId 0 2.
Definition id3 : Id := mkId 0 3.

Definition edge1 : Edge := EDirected (mkDirectedEdge id1 id3 None).

(** Resolves [id1] and fails on every other member. *)
Definition fixture_edge_from_id (vertex_id : Id) (vertex_field : N)
  (schema_id : nat) (sc : SchemaContainer) (id : Id)
  : TxnM (result (result Edge EdgeError) TxnError) :=
  fun t =>
    (if N.eqb (lower id) 1 then Ok (Ok edge1) else Ok (Err (EdgeOtherError 7)),
     log_op t (OpRead id)).

(** A store with no cells, and an engine that commits. *)
Definition env0 : Env := {|
  read_outcome := fun _ _ => Ok None;
  write_outcome := fun _ _ => Ok tt;
  remove_outcome := fun _ _ => Ok tt;
  neb_transaction := spec_neb_transaction;
  client_read_cell := fun _ => Ok (Err CellDoesNotExisted);
  new_schema_with_id := fun s sc =>
    (Ok tt, mkSchemaContainer (sc_types sc) ((schema_id s, s) :: sc_neb sc));
  cell_new := fun s v => Some (mkCell (mkHeader (schema_id s) unit_id) v);
  encode_cell_key := fun sid key => mkId (N.of_nat sid) (fold_left N.add key 0%N);
  cell_to_vertex := fun c =>
    mkVertex (header_schema (header c)) (data c) unit_id unit_id unit_id;
  txn_remove := fun _ _ => ret (Ok (Ok tt));
  txn_update := fun _ _ => ret (Ok tt);
  directed_link := fun from_id to_id body schema_id sc =>
    spec_edge_link (ret (Ok (Ok (mkDirectedEdge from_id to_id None))))
      body schema_id sc;
  undirected_link := fun from_id to_id body schema_id sc =>
    spec_edge_link (ret (Ok (Ok (mkUndirectedEdge from_id to_id None))))
      body schema_id sc;
  edge_from_id := fixture_edge_from_id;
  id_list_all := fun _ _ _ => ret (Ok (Ok [id1; id2; id3]));
  INBOUND_KEY_ID := 1;
  OUTBOUND_KEY_ID := 2;
  UNDIRECTED_KEY_ID := 3;
  ID_LIST_SCHEMA_ID := 100;
  TYPE_LIST_SCHEMA_ID := 101;
  ID_LINKED_LIST := [];
  ID_TYPE_LIST := []
|}.

(** [env0] with another store outcome for reads and another
    [vertex::txn_remove]. *)
Definition with_read_and_remove (e : Env)
  (rd : list StoreOp -> Id -> result (option Cell) TxnError)
  (rm : Env -> SchemaContainer -> Id ->
        TxnM (result (result unit RemoveError) TxnError)) : Env :=
  let e1 := mkEnv rd (write_outcome e) (remove_outcome e) (neb_transaction e)
              (client_read_cell e) (new_schema_with_id e) (cell_new e)
              (encode_cell_key e) (cell_to_vertex e) (txn_remove e)
              (txn_update e) (directed_link e) (undirected_link e)
              (edge_from_id e) (id_list_all e) (INBOUND_KEY_ID e)
              (OUTBOUND_KEY_ID e) (UNDIRECTED_KEY_ID e) (ID_LIST_SCHEMA_ID e)
              (TYPE_LIST_SCHEMA_ID e) (ID_LINKED_LIST e) (ID_TYPE_LIST e) in
  mkEnv rd (write_outcome e) (remove_outcome e) (neb_transaction e)
    (client_read_cell e) (new_schema_with_id e) (cell_new e)
    (encode_cell_key e) (cell_to_vertex e) (rm e1)
    (txn_update e) (directed_link e) (undirected_link e)
    (edge_from_id e) (id_list_all e) (INBOUND_KEY_ID e)
    (OUTBOUND_KEY_ID e) (UNDIRECTED_KEY_ID e) (ID_LIST_SCHEMA_ID e)
    (TYPE_LIST_SCHEMA_ID e) (ID_LINKED_LIST e) (ID_TYPE_LIST e).

(** The vertex is missing: removal fails with a domain error. *)
Definition env_missing : Env :=
  with_read_and_remove env0 (fun _ _ => Ok None) spec_txn_remove.

(** The transaction aborts on its first read. *)
Definition env_aborting : Env :=
  with_read_and_remove env0 (fun _ _ => Err Aborted) spec_txn_remove.

(** Schema 1 is a vertex schema, 5 a directed edge schema with a body,
    6 an undirected edge schema without one; the built-in list schemas
    100 and 101 are registered. *)
Definition vertex_schema1 : Schema := mkSchema 1 "person" None [10%N; 11%N].
Definition list_schema100 : Schema := mkSchema 100 "_NEB_ID_LIST" None [].
Definition list_schema101 : Schema := mkSchema 101 "_NEB_TYPE_ID_LIST" None [].

Definition sc0 : SchemaContainer :=
  mkSchemaContainer
    [(1, SVertex); (5, SEdge (mkEdgeAttributes Directed true));
     (6, SEdge (mkEdgeAttributes Undirected false))]
    [(1, vertex_schema1); (100, list_schema100); (101, list_schema101)].

(** The same catalog before bootstrap. *)
Definition sc_empty : SchemaContainer := mkSchemaContainer (sc_types sc0) [].

Definition g0 : Graph := mkGraph sc0.
Definition t0 : Txn := mkTxn [].

(** Keys already serialized to their field key ids. *)
#[export] Instance serialize_key_ids : Serialize (list N) := fun key => key.

(** The cell [env0] builds for a vertex of schema 1 with no user data. *)
Definition cell_vertex1 : Cell :=
  mkCell (mkHeader 1 unit_id)
    (VMap [(3%N, VId unit_id); (2%N, VId unit_id); (1%N, VId unit_id)]).

(** *** Sequential resolution of Id List members *)

(** [resolves_in_order env vid vf sid sc ids es t t']: resolving [ids] one
    after the other, starting from transaction [t], succeeds on each and
    yields the edges [es], ending in [t']. *)
Inductive resolves_in_order (env : Env) (vertex_id : Id) (vertex_field : N)
  (schema_id : nat) (sc : SchemaContainer)
  : list Id -> list Edge -> Txn -> Txn -> Prop :=
| rio_nil t : resolves_in_order env vertex_id vertex_field schema_id sc [] [] t t
| rio_cons id ids e es t t1 t2 :
    edge_from_id env vertex_id vertex_field schema_id sc id t = (Ok (Ok e), t1) ->
    resolves_in_order env vertex_id vertex_field schema_id sc ids es t1 t2 ->
    resolves_in_order env vertex_id vertex_field schema_id sc (id :: ids) (e :: es) t t2.

(* ------------------------------------------------------------------ *)
(** ** [Graph::new_vertex] *)

(** [cell.header = header] *)
Definition set_header (cell : Cell) (h : CellHeader) : Cell :=
  mkCell h (data cell).

Section FacadeNewVertex.

Variable env : Env.

(** [NebClient::write_cell]: the header of the written cell, a store
    error, or an RPC failure. *)
Variable write_cell : Cell -> result (result CellHeader WriteError) RPCError.

(** [Graph::new_vertex] (lines 136-146). *)
Definition graph_new_vertex (g : Graph) (schema_id : nat) (user_data : Map)
  : result Vertex NewVertexError :=
  let vertex := Vertex_new schema_id user_data in
  match vertex_to_cell_for_write env (graph_schemas g) vertex with
  | Err e => Err e
  | Ok cell =>
    match write_cell cell with
    | Ok (Ok h) => Ok (cell_to_vertex env (set_header cell h))
    | Ok (Err e) => Err (NVWriteError e)
    | Err e => Err (NVRPCError e)
    end
  end.

End FacadeNewVertex.

(** A client whose writes succeed, giving the cell the id [id1]. *)
Definition fixture_write_cell (c : Cell)
  : result (result CellHeader WriteError) RPCError :=
  Ok (Ok (mkHeader (header_schema (header c)) id1)).


(** The store of [env0] with an empty Id List. *)
Definition env_empty_list : Env :=
  mkEnv (read_outcome env0) (write_outcome env0) (remove_outcome env0)
    (neb_transaction env0) (client_read_cell env0) (new_schema_with_id env0)
    (cell_new env0) (encode_cell_key env0) (cell_to_vertex env0)
    (txn_remove env0) (txn_update env0) (directed_link env0)
    (undirected_link env0) (edge_from_id env0)
    (fun _ _ _ => ret (Ok (Ok []))) (INBOUND_KEY_ID env0)
    (OUTBOUND_KEY_ID env0) (UNDIRECTED_KEY_ID env0) (ID_LIST_SCHEMA_ID env0)
    (TYPE_LIST_SCHEMA_ID env0) (ID_LINKED_LIST env0) (ID_TYPE_LIST env0).

(* ------------------------------------------------------------------ *)
(** ** Lemmas *)

Lemma map_get_filter_other (k k' : N) (m : Map) :
  k <> k' ->
  map_get k (filter (fun p => negb (N.eqb (fst p) k')) m) = map_get k m.
Proof.
  intros Hne. induction m as [|[k0 v0] m IH]; simpl; [reflexivity|].
  destruct (N.eqb k0 k') eqn:E0; simpl.
  - apply N.eqb_eq in E0; subst k0.
    apply N.eqb_neq in Hne. rewrite Hne. exact IH.
  - destruct (N.eqb k k0); [reflexivity | exact IH].
Qed.

Lemma map_get_insert_key_id (k k' : N) (v : Value) (m : Map) :
  map_get k (insert_key_id k' v m) =
  if N.eqb k k' then Some v else map_get k m.
Proof.
  unfold insert_key_id; simpl.
  destruct (N.eqb k k') eqn:E; [reflexivity|].
  apply map_get_filter_other, N.eqb_neq, E.
Qed.

Lemma resolve_edges_all_ok env vertex_id vertex_field schema_id sc ids es t t' :
  resolves_in_order env vertex_id vertex_field schema_id sc ids es t t' ->
  forall acc,
  resolve_edges env vertex_id vertex_field schema_id sc ids acc t =
  (Ok (Ok (acc ++ es)), t').
Proof.
  induction 1 as [t|id ids e es t t1 t2 Hid Hrest IH]; intros acc.
  - simpl. rewrite app_nil_r. reflexivity.
  - simpl. unfold try_txn, bind. rewrite Hid.
    rewrite IH, <- app_assoc. reflexivity.
Qed.

Lemma resolve_edges_first_error env vertex_id vertex_field schema_id sc
  pre x rest es t t1 er t2 :
  resolves_in_order env vertex_id vertex_field schema_id sc pre es t t1 ->
  edge_from_id env vertex_id vertex_field schema_id sc x t1 = (Ok (Err er), t2) ->
  forall acc,
  resolve_edges env vertex_id vertex_field schema_id sc (pre ++ x :: rest) acc t =
  (Ok (Err er), t2).
Proof.
  induction 1 as [t|id ids e es t t1' t1'' Hid Hrest IH]; intros Hx acc.
  - simpl. unfold try_txn, bind. rewrite Hx. reflexivity.
  - simpl. unfold try_txn, bind. rewrite Hid. apply IH, Hx.
Qed.

(* ------------------------------------------------------------------ *)
(** ** Claims *)

(** C1 (counterexample): not every [GraphTransaction] method returns a
    double-wrapped result: [update_vertex] and [read_vertex] return a
    single [Result<_, TxnError>] with no inner domain layer. *)
Lemma update_read_vertex_not_double_wrapped :
  double_wrapped (gtxn_result_shape GT_update_vertex) = false /\
  double_wrapped (gtxn_result_shape GT_read_vertex) = false /\
  ~ (forall m, double_wrapped (gtxn_result_shape m) = true).
Proof.
  split; [reflexivity|]. split; [reflexivity|].
  intros H. specialize (H GT_update_vertex). discriminate H.
Qed.

(** C1 (amended): exactly [new_vertex], [remove_vertex],
    [remove_vertex_by_key], [link] and [neighbourhoods] return
    [Result<Result<T, E>, TxnError>]; [update_vertex],
    [update_vertex_by_key], [read_vertex] and [get_vertex] return a single
    [Result<T, TxnError>]. *)
Theorem gtxn_double_wrapped_methods :
  forall m, double_wrapped (gtxn_result_shape m) = true <->
    In m [GT_new_vertex; GT_remove_vertex; GT_remove_vertex_by_key; GT_link;
          GT_neighbourhoods].
Proof.
  intros m; destruct m; simpl; split; intros H;
    try reflexivity; try discriminate H;
    try (left; reflexivity);
    repeat (destruct H as [H|H]; [discriminate H|]); try contradiction;
    repeat (right; try (left; reflexivity)).
Qed.

(** C2: when the schema id is absent from the catalog, [link] returns the
    inner error [EdgeSchemaNotFound]; when it names a non-Edge schema, the
    inner error [SchemaNotEdge].  In both cases the transaction comes back
    unchanged (no read or write issued), whatever the edge layer and the
    store do. *)
Theorem link_schema_check_no_store env sc schema_id from_id to_id body t :
  (schema_type sc schema_id = None ->
   gt_link env sc schema_id from_id to_id body t =
   (Ok (Err EdgeSchemaNotFound), t)) /\
  (forall st, schema_type sc schema_id = Some st -> (forall ea, st <> SEdge ea) ->
   gt_link env sc schema_id from_id to_id body t = (Ok (Err SchemaNotEdge), t)).
Proof.
  split.
  - intros H. unfold gt_link. rewrite H. reflexivity.
  - intros st H Hne. unfold gt_link. rewrite H.
    destruct st as [|ea]; [reflexivity|].
    exfalso. exact (Hne ea eq_refl).
Qed.

(** C3: [neighbourhoods] resolves the members of the Id List in order and
    is fail-fast.  If the members before [x] resolve and [x] yields the
    domain error [er], the call returns [er] as its inner result, with no
    edge list and no member after [x] resolved (the transaction ends where
    [x]'s resolution left it); if every member resolves, the call returns
    the resolved edges in Id List order. *)
Theorem neighbourhoods_fail_fast env sc vertex_id schema_id ed t t0 ids :
  id_list_all env vertex_id (as_field env ed) schema_id t = (Ok (Ok ids), t0) ->
  (forall pre x rest es t1 er t2,
     ids = pre ++ x :: rest ->
     resolves_in_order env vertex_id (as_field env ed) schema_id sc pre es t0 t1 ->
     edge_from_id env vertex_id (as_field env ed) schema_id sc x t1 =
       (Ok (Err er), t2) ->
     gt_neighbourhoods env sc vertex_id schema_id ed t = (Ok (Err er), t2)) /\
  (forall es t1,
     resolves_in_order env vertex_id (as_field env ed) schema_id sc ids es t0 t1 ->
     gt_neighbourhoods env sc vertex_id schema_id ed t = (Ok (Ok es), t1)).
Proof.
  intros Hall. split.
  - intros pre x rest es t1 er t2 -> Hpre Hx.
    unfold gt_neighbourhoods, try_txn, bind. rewrite Hall.
    apply (resolve_edges_first_error env _ _ _ sc pre x rest es t0 t1 er t2 Hpre Hx).
  - intros es t1 Hids.
    unfold gt_neighbourhoods, try_txn, bind. rewrite Hall.
    apply (resolve_edges_all_ok env _ _ _ sc ids es t0 t1 Hids).
Qed.

(** C4: a vertex cell built for writing from a map of user data is the cell
    [Cell::new] makes from a map [data'] in which the inbound, outbound and
    undirected list-head fields hold the null identifier and every other
    key holds the user's value (a user value under one of the three
    reserved keys is replaced). *)
Theorem vertex_cell_adjacency_fields env sc schema_id (user_data : Map) c :
  vertex_to_cell_for_write env sc (Vertex_new schema_id user_data) = Ok c ->
  exists neb_schema data',
    schema_type sc schema_id = Some SVertex /\
    get_neb_schema sc schema_id = Some neb_schema /\
    cell_new env neb_schema (VMap data') = Some c /\
    (forall k, map_get k data' =
       if N.eqb k (INBOUND_KEY_ID env) || N.eqb k (OUTBOUND_KEY_ID env)
          || N.eqb k (UNDIRECTED_KEY_ID env)
       then Some (VId unit_id) else map_get k user_data).
Proof.
  unfold vertex_to_cell_for_write, Vertex_new; simpl.
  destruct (schema_type sc schema_id) as [[|ea]|] eqn:Hst; simpl;
    try discriminate.
  destruct (get_neb_schema sc schema_id) as [ns|] eqn:Hns; [|discriminate].
  set (d := insert_key_id (UNDIRECTED_KEY_ID env) (VId unit_id)
              (insert_key_id (OUTBOUND_KEY_ID env) (VId unit_id)
                 (insert_key_id (INBOUND_KEY_ID env) (VId unit_id) user_data))).
  destruct (cell_new env ns (VMap d)) as [cell|] eqn:Hc; [|discriminate].
  intros Hok. injection Hok as <-.
  exists ns, d. split; [reflexivity|]. split; [reflexivity|].
  split; [exact Hc|].
  intros k. unfold d. rewrite !map_get_insert_key_id.
  destruct (N.eqb k (UNDIRECTED_KEY_ID env)), (N.eqb k (OUTBOUND_KEY_ID env)),
    (N.eqb k (INBOUND_KEY_ID env)); reflexivity.
Qed.

(** C5: [Graph::new] bootstraps the two built-in Id List schemas as an
    upsert-if-absent.  On a catalog holding both, it succeeds and leaves
    the catalog unchanged (no registration); if registering the first, or
    (after the first is in place) the second, fails with [e], construction
    fails with [e]. *)
Theorem graph_new_bootstrap env schemas :
  (forall s1 s2,
     get_neb_schema schemas (ID_LIST_SCHEMA_ID env) = Some s1 ->
     get_neb_schema schemas (TYPE_LIST_SCHEMA_ID env) = Some s2 ->
     graph_new env schemas = (Ok (mkGraph schemas), schemas)) /\
  (forall e s1,
     get_neb_schema schemas (ID_LIST_SCHEMA_ID env) = None ->
     new_schema_with_id env
       (Schema_new_with_id (ID_LIST_SCHEMA_ID env) "_NEB_ID_LIST" None
          (ID_LINKED_LIST env)) schemas = (Err e, s1) ->
     graph_new env schemas = (Err e, s1)) /\
  (forall e s1 s2,
     check_schema env (ID_LIST_SCHEMA_ID env) "_NEB_ID_LIST" (ID_LINKED_LIST env)
       schemas = (Ok tt, s1) ->
     get_neb_schema s1 (TYPE_LIST_SCHEMA_ID env) = None ->
     new_schema_with_id env
       (Schema_new_with_id (TYPE_LIST_SCHEMA_ID env) "_NEB_TYPE_ID_LIST" None
          (ID_TYPE_LIST env)) s1 = (Err e, s2) ->
     graph_new env schemas = (Err e, s2)).
Proof.
  split; [|split].
  - intros s1 s2 H1 H2.
    unfold graph_new, check_base_schemas, check_schema.
    rewrite H1, H2. reflexivity.
  - intros e s1 H1 Hreg.
    unfold graph_new, check_base_schemas, check_schema.
    rewrite H1, Hreg. reflexivity.
  - intros e s1 s2 Hfirst H2 Hreg.
    unfold graph_new, check_base_schemas.
    rewrite Hfirst. unfold check_schema at 1. rewrite H2, Hreg. reflexivity.
Qed.

(** C6 (counterexample): the facade's [remove_vertex] reports a domain
    removal failure as a transaction abort.  Removing a missing vertex
    fails in [GraphTransaction::remove_vertex] with the inner domain error
    [RemoveNotFound], yet [Graph::remove_vertex] returns
    [Err TxnError::Aborted], the very result it returns when the store
    transaction aborts. *)
Lemma facade_remove_vertex_reports_abort :
  fst (gt_remove_vertex env_missing sc0 id1 t0) = Ok (Err RemoveNotFound) /\
  graph_remove_vertex env_missing g0 id1 = Err Aborted /\
  fst (gt_remove_vertex env_aborting sc0 id1 t0) = Err Aborted /\
  graph_remove_vertex env_aborting g0 id1 = Err Aborted.
Proof.
  repeat split; reflexivity.
Qed.

(** C6 (amended): [GraphTransaction::remove_vertex] keeps [RemoveError]
    in the inner layer, but the closure that [Graph::remove_vertex] hands
    to the transaction engine maps every inner [RemoveError] to
    [TxnError::Aborted] and passes outer [TxnError]s through unchanged, so
    at the facade a domain removal failure and a transaction abort are the
    same result. *)
Theorem facade_remove_vertex_closure env g id :
  graph_remove_vertex env g id =
  neb_transaction env unit (remove_vertex_closure env id (graph_schemas g)) /\
  (forall t,
   remove_vertex_closure env id (graph_schemas g) t =
   match gt_remove_vertex env (graph_schemas g) id t with
   | (Ok (Ok _), t1) => (Ok tt, t1)
   | (Ok (Err _), t1) => (Err Aborted, t1)
   | (Err te, t1) => (Err te, t1)
   end).
Proof.
  split; [reflexivity|].
  intros t. unfold remove_vertex_closure, try_txn, bind.
  destruct (gt_remove_vertex env (graph_schemas g) id t) as [[[[]|e]|te] t1];
    reflexivity.
Qed.

(** C7: [Graph::read_vertex] maps the store's [CellDoesNotExisted] to
    [Ok None] and never returns it as an error; other read errors and RPC
    errors are returned as errors; [get_vertex] on a key whose encoded
    cell does not exist also returns [Ok None]. *)
Theorem read_vertex_missing_is_none env g id :
  (client_read_cell env id = Ok (Err CellDoesNotExisted) ->
   graph_read_vertex env g id = Ok None) /\
  (forall e, client_read_cell env id = Ok (Err e) -> e <> CellDoesNotExisted ->
   graph_read_vertex env g id = Err (RVReadError e)) /\
  (forall e, client_read_cell env id = Err e ->
   graph_read_vertex env g id = Err (RVRPCError e)) /\
  (forall c, client_read_cell env id = Ok (Ok c) ->
   graph_read_vertex env g id = Ok (Some (cell_to_vertex env c))) /\
  graph_read_vertex env g id <> Err (RVReadError CellDoesNotExisted) /\
  (forall K `{Serialize K} schema_id (key : K),
   client_read_cell env (encode_cell_key env schema_id (serialize key)) =
     Ok (Err CellDoesNotExisted) ->
   graph_get_vertex env g schema_id key = Ok None).
Proof.
  unfold graph_get_vertex, graph_read_vertex.
  split; [|split; [|split; [|split; [|split]]]].
  - intros H. rewrite H. reflexivity.
  - intros e H Hne. rewrite H. destruct e; [contradiction | reflexivity].
  - intros e H. rewrite H. reflexivity.
  - intros c H. rewrite H. reflexivity.
  - destruct (client_read_cell env id) as [[c|[]]|e]; discriminate.
  - intros K HK schema_id key H. rewrite H. reflexivity.
Qed.

(** C8 (counterexample): [link] never returns [BodyRequired]: with the
    edge layer's body check of §4.4, linking through the requires-body
    schema 5 without a body returns [EdgeError(EdgeBodyRequired)], and
    linking through the body-less schema 6 with a body returns
    [EdgeError(EdgeBodyShouldNotExisted)]. *)
Lemma link_body_mismatch_is_edge_error :
  gt_link env0 sc0 5 id1 id2 None t0 =
    (Ok (Err (LVEdgeError EdgeBodyRequired)), t0) /\
  fst (gt_link env0 sc0 5 id1 id2 None t0) <> Ok (Err BodyRequired) /\
  gt_link env0 sc0 6 id1 id2 (Some []) t0 =
    (Ok (Err (LVEdgeError EdgeBodyShouldNotExisted)), t0) /\
  fst (gt_link env0 sc0 6 id1 id2 (Some []) t0) <> Ok (Err BodyShouldNotExisted).
Proof.
  repeat split; try reflexivity; discriminate.
Qed.

(** C8 (amended): for an Edge schema, [link] does not check body presence
    itself: it returns the inner error of the Directed or Undirected edge
    layer wrapped as [EdgeError(e)], in the transaction that layer leaves
    (so with no store interaction when the layer rejects before touching
    the store), and it never returns [BodyRequired] or
    [BodyShouldNotExisted]. *)
Theorem link_body_check_in_edge_layer env sc schema_id from_id to_id body t :
  (forall ea e t',
     schema_type sc schema_id = Some (SEdge ea) ->
     match edge_type ea with
     | Directed =>
       directed_link env from_id to_id body schema_id sc t = (Ok (Err e), t')
     | Undirected =>
       undirected_link env from_id to_id body schema_id sc t = (Ok (Err e), t')
     end ->
     gt_link env sc schema_id from_id to_id body t = (Ok (Err (LVEdgeError e)), t')) /\
  fst (gt_link env sc schema_id from_id to_id body t) <> Ok (Err BodyRequired) /\
  fst (gt_link env sc schema_id from_id to_id body t) <> Ok (Err BodyShouldNotExisted).
Proof.
  split; [|split].
  - intros ea e t' Hst Hlayer. unfold gt_link. rewrite Hst.
    unfold try_txn, bind.
    destruct (edge_type ea); rewrite Hlayer; reflexivity.
  - unfold gt_link, try_txn, bind.
    destruct (schema_type sc schema_id) as [[|ea]|]; simpl; try discriminate.
    destruct (edge_type ea).
    + destruct (directed_link env from_id to_id body schema_id sc t)
        as [[[d|e]|te] t1]; simpl; discriminate.
    + destruct (undirected_link env from_id to_id body schema_id sc t)
        as [[[d|e]|te] t1]; simpl; discriminate.
  - unfold gt_link, try_txn, bind.
    destruct (schema_type sc schema_id) as [[|ea]|]; simpl; try discriminate.
    destruct (edge_type ea).
    + destruct (directed_link env from_id to_id body schema_id sc t)
        as [[[d|e]|te] t1]; simpl; discriminate.
    + destruct (undirected_link env from_id to_id body schema_id sc t)
        as [[[d|e]|te] t1]; simpl; discriminate.
Qed.

(** C9: every by-key operation is its by-id counterpart applied to
    [Cell::encode_cell_key(schema_id, key)], on the facade and in a
    transaction alike, so get, update and remove with the same
    [(schema_id, key)] address the same cell. *)
Theorem by_key_is_by_encoded_id env {K} `{Serialize K} (g : Graph)
  (sc : SchemaContainer) (schema_id : nat) (key : K)
  (update : Vertex -> option Vertex) (t : Txn) :
  let id := encode_cell_key env schema_id (serialize key) in
  graph_remove_vertex_by_key env g schema_id key = graph_remove_vertex env g id /\
  graph_update_vertex_by_key env g schema_id key update =
    graph_update_vertex env g id update /\
  graph_get_vertex env g schema_id key = graph_read_vertex env g id /\
  gt_remove_vertex_by_key env sc schema_id key t = gt_remove_vertex env sc id t /\
  gt_update_vertex_by_key env schema_id key update t = gt_update_vertex env id update t /\
  gt_get_vertex env schema_id key t = gt_read_vertex env id t.
Proof.
  intros id. repeat split.
Qed.

(** C10: [GraphTransaction::new_vertex] is atomic on validation failure.
    Whenever [vertex_to_cell_for_write] fails (schema absent, not a Vertex
    schema, data not a map, or no cell from the data) the call returns that
    inner [NewVertexError] and the transaction comes back unchanged; on
    success it issues exactly one write, of the constructed cell, and
    returns its vertex unless the write aborts the transaction. *)
Theorem new_vertex_atomic env sc schema_id data t :
  (forall e,
     vertex_to_cell_for_write env sc (Vertex_new schema_id data) = Err e ->
     gt_new_vertex env sc schema_id data t = (Ok (Err e), t) /\
     (e = SchemaNotFound \/ e = SchemaNotVertex \/ e = DataNotMap \/
      e = CannotGenerateCellByData)) /\
  (schema_type sc schema_id = None ->
   gt_new_vertex env sc schema_id data t = (Ok (Err SchemaNotFound), t)) /\
  (forall ea, schema_type sc schema_id = Some (SEdge ea) ->
   gt_new_vertex env sc schema_id data t = (Ok (Err SchemaNotVertex), t)) /\
  (schema_type sc schema_id = Some SVertex -> get_neb_schema sc schema_id = None ->
   gt_new_vertex env sc schema_id data t = (Ok (Err SchemaNotFound), t)) /\
  (forall c,
     vertex_to_cell_for_write env sc (Vertex_new schema_id data) = Ok c ->
     gt_new_vertex env sc schema_id data t =
     (match write_outcome env (txn_log t) c with
      | Ok _ => Ok (Ok (cell_to_vertex env c))
      | Err te => Err te
      end, mkTxn (txn_log t ++ [OpWrite c]))).
Proof.
  split; [|split; [|split; [|split]]].
  - intros e He. unfold gt_new_vertex. rewrite He. split; [reflexivity|].
    revert He. unfold vertex_to_cell_for_write, Vertex_new; simpl.
    destruct (schema_type sc schema_id) as [[|ea]|]; simpl;
      [| intros H; injection H as <-; tauto | intros H; injection H as <-; tauto].
    destruct (get_neb_schema sc schema_id) as [ns|];
      [| intros H; injection H as <-; tauto].
    match goal with |- context [cell_new env ns ?v] => destruct (cell_new env ns v) end;
      [discriminate | intros H; injection H as <-; tauto].
  - intros H. unfold gt_new_vertex, vertex_to_cell_for_write. simpl.
    rewrite H. reflexivity.
  - intros ea H. unfold gt_new_vertex, vertex_to_cell_for_write. simpl.
    rewrite H. reflexivity.
  - intros H1 H2. unfold gt_new_vertex, vertex_to_cell_for_write. simpl.
    rewrite H1. simpl. rewrite H2. reflexivity.
  - intros c Hc. unfold gt_new_vertex. rewrite Hc.
    unfold try_txn, bind, txn_write, log_op.
    destruct (write_outcome env (txn_log t) c); reflexivity.
Qed.

(* ------------------------------------------------------------------ *)
(** ** Witnesses *)

Lemma link_schema_check_no_store_witness :
  schema_type sc0 9 = None /\
  gt_link env0 sc0 9 id1 id2 None t0 = (Ok (Err EdgeSchemaNotFound), t0) /\
  schema_type sc0 1 = Some SVertex /\
  gt_link env0 sc0 1 id1 id2 None t0 = (Ok (Err SchemaNotEdge), t0).
Proof.
  destruct (link_schema_check_no_store env0 sc0 9 id1 id2 None t0) as [H9 _].
  destruct (link_schema_check_no_store env0 sc0 1 id1 id2 None t0) as [_ H1].
  split; [reflexivity|]. split; [apply H9; reflexivity|].
  split; [reflexivity|].
  apply (H1 SVertex); [reflexivity | intros ea; discriminate].
Defined.

Lemma neighbourhoods_fail_fast_witness :
  id_list_all env0 id3 (as_field env0 Outbound) 5 t0 = (Ok (Ok [id1; id2; id3]), t0) /\
  gt_neighbourhoods env0 sc0 id3 5 Outbound t0 =
  (Ok (Err (EdgeOtherError 7)), mkTxn [OpRead id1; OpRead id2]).
Proof.
  split; [reflexivity|].
  destruct (neighbourhoods_fail_fast env0 sc0 id3 5 Outbound t0 t0 [id1; id2; id3]
              eq_refl) as [Hfail _].
  apply (Hfail [id1] id2 [id3] [edge1] (mkTxn [OpRead id1])).
  - reflexivity.
  - econstructor; [reflexivity | constructor].
  - reflexivity.
Defined.

Lemma vertex_cell_adjacency_fields_witness :
  vertex_to_cell_for_write env0 sc0 (Vertex_new 1 [(10%N, VU64 7)]) =
    Ok (mkCell (mkHeader 1 unit_id)
          (VMap [(3%N, VId unit_id); (2%N, VId unit_id); (1%N, VId unit_id);
                 (10%N, VU64 7)])) /\
  exists neb_schema data',
    schema_type sc0 1 = Some SVertex /\
    get_neb_schema sc0 1 = Some neb_schema /\
    cell_new env0 neb_schema (VMap data') =
      Some (mkCell (mkHeader 1 unit_id)
              (VMap [(3%N, VId unit_id); (2%N, VId unit_id); (1%N, VId unit_id);
                     (10%N, VU64 7)])) /\
    (forall k, map_get k data' =
       if N.eqb k 1 || N.eqb k 2 || N.eqb k 3
       then Some (VId unit_id) else map_get k [(10%N, VU64 7)]).
Proof.
  split; [reflexivity|].
  apply (vertex_cell_adjacency_fields env0 sc0 1 [(10%N, VU64 7)]).
  reflexivity.
Defined.

Lemma graph_new_bootstrap_witness :
  get_neb_schema sc0 100 = Some list_schema100 /\
  get_neb_schema sc0 101 = Some list_schema101 /\
  graph_new env0 sc0 = (Ok (mkGraph sc0), sc0).
Proof.
  destruct (graph_new_bootstrap env0 sc0) as [H _].
  split; [reflexivity|]. split; [reflexivity|].
  apply (H list_schema100 list_schema101); reflexivity.
Defined.

Lemma read_vertex_missing_is_none_witness :
  client_read_cell env0 id1 = Ok (Err CellDoesNotExisted) /\
  graph_read_vertex env0 g0 id1 = Ok None /\
  graph_get_vertex env0 g0 1 [7%N] = Ok None.
Proof.
  destruct (read_vertex_missing_is_none env0 g0 id1)
    as (Hnone & _ & _ & _ & _ & Hkey).
  split; [reflexivity|]. split; [apply Hnone; reflexivity|].
  apply (Hkey (list N) serialize_key_ids 1 [7%N]). reflexivity.
Defined.

Lemma link_body_check_in_edge_layer_witness :
  schema_type sc0 6 = Some (SEdge (mkEdgeAttributes Undirected false)) /\
  gt_link env0 sc0 6 id1 id2 (Some [(10%N, VU64 1)]) t0 =
    (Ok (Err (LVEdgeError EdgeBodyShouldNotExisted)), t0).
Proof.
  destruct (link_body_check_in_edge_layer env0 sc0 6 id1 id2
              (Some [(10%N, VU64 1)]) t0) as [H _].
  split; [reflexivity|].
  apply (H (mkEdgeAttributes Undirected false) EdgeBodyShouldNotExisted t0);
    reflexivity.
Defined.

Lemma new_vertex_atomic_witness :
  gt_new_vertex env0 sc0 5 [] t0 = (Ok (Err SchemaNotVertex), t0) /\
  vertex_to_cell_for_write env0 sc0 (Vertex_new 1 []) = Ok cell_vertex1 /\
  gt_new_vertex env0 sc0 1 [] t0 =
    (Ok (Ok (cell_to_vertex env0 cell_vertex1)), mkTxn [OpWrite cell_vertex1]).
Proof.
  destruct (new_vertex_atomic env0 sc0 5 [] t0) as (_ & _ & H5 & _ & _).
  destruct (new_vertex_atomic env0 sc0 1 [] t0) as (_ & _ & _ & _ & H1).
  split; [apply (H5 (mkEdgeAttributes Directed true)); reflexivity|].
  split; [reflexivity|].
  rewrite (H1 cell_vertex1 ltac:(reflexivity)). reflexivity.
Defined.

(* ------------------------------------------------------------------ *)
(** ** Further properties of graph/mod.rs *)



(** The facade's [Graph::new_vertex] and [GraphTransaction::new_vertex]
    reject the same inputs with the same validation error: for a
    validation error [e], the transactional call's inner result is [Err e]
    exactly when the facade call returns [Err e]. *)
Theorem new_vertex_validation_agrees env write_cell g schema_id user_data t e :
  (e = SchemaNotFound \/ e = SchemaNotVertex \/ e = DataNotMap \/
   e = CannotGenerateCellByData) ->
  (fst (gt_new_vertex env (graph_schemas g) schema_id user_data t) = Ok (Err e) <->
   graph_new_vertex env write_cell g schema_id user_data = Err e).
Proof.
  intros He. unfold gt_new_vertex, graph_new_vertex.
  destruct (vertex_to_cell_for_write env (graph_schemas g)
              (Vertex_new schema_id user_data)) as [c|e'].
  - unfold try_txn, bind, txn_write; simpl.
    destruct (write_outcome env (txn_log t) c);
    destruct (write_cell c) as [[h|we]|re]; simpl;
      split; intros H; try discriminate H;
      injection H as <-; destruct He as [He|[He|[He|He]]]; discriminate He.
  - simpl. split; intros H; injection H as ->; reflexivity.
Qed.

Lemma new_vertex_validation_agrees_witness :
  (SchemaNotVertex = SchemaNotFound \/ SchemaNotVertex = SchemaNotVertex \/
   SchemaNotVertex = DataNotMap \/ SchemaNotVertex = CannotGenerateCellByData) /\
  (fst (gt_new_vertex env0 sc0 5 [] t0) = Ok (Err SchemaNotVertex) <->
   graph_new_vertex env0 fixture_write_cell g0 5 [] = Err SchemaNotVertex).
Proof.
  assert (He : SchemaNotVertex = SchemaNotFound \/ SchemaNotVertex = SchemaNotVertex \/
               SchemaNotVertex = DataNotMap \/
               SchemaNotVertex = CannotGenerateCellByData)
    by (right; left; reflexivity).
  split; [exact He|].
  exact (new_vertex_validation_agrees env0 fixture_write_cell g0 5 [] t0
           SchemaNotVertex He).
Defined.

(** [vertex_to_cell_for_write] fails with [SchemaNotFound] exactly when the
    schema is absent from the catalog or has no neb schema, with
    [SchemaNotVertex] exactly when it is an Edge schema, with [DataNotMap]
    exactly when the schema checks pass and the data is not a map, with
    [CannotGenerateCellByData] exactly when [Cell::new] rejects the map
    filled with the three null adjacency fields, and succeeds exactly when
    [Cell::new] accepts that map, with the cell it returns. *)
Theorem vertex_to_cell_for_write_cases env sc v :
  let sid := v_schema v in
  let fill m := insert_key_id (UNDIRECTED_KEY_ID env) (VId unit_id)
                  (insert_key_id (OUTBOUND_KEY_ID env) (VId unit_id)
                     (insert_key_id (INBOUND_KEY_ID env) (VId unit_id) m)) in
  (vertex_to_cell_for_write env sc v = Err SchemaNotFound <->
     schema_type sc sid = None \/
     (schema_type sc sid = Some SVertex /\ get_neb_schema sc sid = None)) /\
  (vertex_to_cell_for_write env sc v = Err SchemaNotVertex <->
     exists ea, schema_type sc sid = Some (SEdge ea)) /\
  (vertex_to_cell_for_write env sc v = Err DataNotMap <->
     schema_type sc sid = Some SVertex /\ get_neb_schema sc sid <> None /\
     (forall m, v_data v <> VMap m)) /\
  (vertex_to_cell_for_write env sc v = Err CannotGenerateCellByData <->
     schema_type sc sid = Some SVertex /\
     exists ns m, get_neb_schema sc sid = Some ns /\ v_data v = VMap m /\
       cell_new env ns (VMap (fill m)) = None) /\
  (forall c, vertex_to_cell_for_write env sc v = Ok c <->
     schema_type sc sid = Some SVertex /\
     exists ns m, get_neb_schema sc sid = Some ns /\ v_data v = VMap m /\
       cell_new env ns (VMap (fill m)) = Some c).
Proof.
  intros sid fill. unfold vertex_to_cell_for_write, fill, sid.
  destruct (schema_type sc (v_schema v)) as [[|ea]|] eqn:Hst; simpl;
    [destruct (get_neb_schema sc (v_schema v)) as [ns|] eqn:Hns;
       [destruct (v_data v) as [| | | |m] eqn:Hd;
          try (destruct (cell_new env ns _) eqn:Hc)|]| |].
  all: repeat split; intros; repeat match goal with
        | H : _ /\ _ |- _ => destruct H
        | H : _ \/ _ |- _ => destruct H
        | H : exists _, _ |- _ => destruct H
        end; try discriminate; try congruence; eauto 10.
  all: try (exfalso; match goal with H : forall m, VMap ?m0 <> VMap m |- _ =>
                       exact (H m0 eq_refl) end).
  all: try (eexists; eexists; split; [reflexivity|split; [reflexivity|]]; congruence).
Qed.

Lemma vertex_to_cell_for_write_cases_witness :
  vertex_to_cell_for_write env0 sc0 (mkVertex 1 (VU64 3) unit_id unit_id unit_id)
    = Err DataNotMap /\
  vertex_to_cell_for_write env0 sc0 (Vertex_new 9 []) = Err SchemaNotFound.
Proof.
  destruct (vertex_to_cell_for_write_cases env0 sc0
              (mkVertex 1 (VU64 3) unit_id unit_id unit_id)) as (_ & _ & Hd & _).
  destruct (vertex_to_cell_for_write_cases env0 sc0 (Vertex_new 9 []))
    as (Hnf & _).
  split.
  - apply Hd. split; [reflexivity|]. split; [discriminate|].
    intros m; discriminate.
  - apply Hnf. left. reflexivity.
Defined.

(** A successful [link] always comes from an Edge schema, and the edge it
    returns is the one the edge layer of the schema's kind built, in the
    matching variant ([Edge::Directed] for a Directed schema,
    [Edge::Undirected] for an Undirected one); an outer [TxnError] from
    [link] is the edge layer's own, passed through unchanged. *)
Theorem link_result_from_edge_layer env sc schema_id from_id to_id body t :
  (forall edge t1,
     gt_link env sc schema_id from_id to_id body t = (Ok (Ok edge), t1) ->
     exists ea, schema_type sc schema_id = Some (SEdge ea) /\
     match edge_type ea with
     | Directed => exists d, edge = EDirected d /\
         directed_link env from_id to_id body schema_id sc t = (Ok (Ok d), t1)
     | Undirected => exists u, edge = EUndirected u /\
         undirected_link env from_id to_id body schema_id sc t = (Ok (Ok u), t1)
     end) /\
  (forall te t1,
     gt_link env sc schema_id from_id to_id body t = (Err te, t1) ->
     exists ea, schema_type sc schema_id = Some (SEdge ea) /\
     match edge_type ea with
     | Directed =>
       directed_link env from_id to_id body schema_id sc t = (Err te, t1)
     | Undirected =>
       undirected_link env from_id to_id body schema_id sc t = (Err te, t1)
     end).
Proof.
  unfold gt_link, try_txn, bind.
  destruct (schema_type sc schema_id) as [[|ea]|]; simpl;
    [split; intros; discriminate | | split; intros; discriminate].
  split.
  - intros edge t1 H. exists ea. split; [reflexivity|].
    destruct (edge_type ea).
    + destruct (directed_link env from_id to_id body schema_id sc t)
        as [[[d|e]|te] t2]; simpl in H; try discriminate.
      injection H as <- <-. exists d. split; reflexivity.
    + destruct (undirected_link env from_id to_id body schema_id sc t)
        as [[[u|e]|te] t2]; simpl in H; try discriminate.
      injection H as <- <-. exists u. split; reflexivity.
  - intros te t1 H. exists ea. split; [reflexivity|].
    destruct (edge_type ea).
    + destruct (directed_link env from_id to_id body schema_id sc t)
        as [[[d|e]|te'] t2]; simpl in H; try discriminate.
      injection H as <- <-. reflexivity.
    + destruct (undirected_link env from_id to_id body schema_id sc t)
        as [[[u|e]|te'] t2]; simpl in H; try discriminate.
      injection H as <- <-. reflexivity.
Qed.

Lemma link_result_from_edge_layer_witness :
  gt_link env0 sc0 5 id1 id2 (Some []) t0 =
    (Ok (Ok (EDirected (mkDirectedEdge id1 id2 None))), t0) /\
  exists ea, schema_type sc0 5 = Some (SEdge ea) /\
  match edge_type ea with
  | Directed => exists d, EDirected (mkDirectedEdge id1 id2 None) = EDirected d /\
      directed_link env0 id1 id2 (Some []) 5 sc0 t0 = (Ok (Ok d), t0)
  | Undirected => exists u, EDirected (mkDirectedEdge id1 id2 None) = EUndirected u /\
      undirected_link env0 id1 id2 (Some []) 5 sc0 t0 = (Ok (Ok u), t0)
  end.
Proof.
  destruct (link_result_from_edge_layer env0 sc0 5 id1 id2 (Some []) t0) as [H _].
  split; [reflexivity|].
  apply H. reflexivity.
Defined.

Lemma resolve_edges_first_txn_error env vertex_id vertex_field schema_id sc
  pre x rest es t t1 te t2 :
  resolves_in_order env vertex_id vertex_field schema_id sc pre es t t1 ->
  edge_from_id env vertex_id vertex_field schema_id sc x t1 = (Err te, t2) ->
  forall acc,
  resolve_edges env vertex_id vertex_field schema_id sc (pre ++ x :: rest) acc t =
  (Err te, t2).
Proof.
  induction 1 as [t|id ids e es t t1' t1'' Hid Hrest IH]; intros Hx acc.
  - simpl. unfold try_txn, bind. rewrite Hx. reflexivity.
  - simpl. unfold try_txn, bind. rewrite Hid. apply IH, Hx.
Qed.

(** [neighbourhoods] on the edge cases of its Id List: an empty list gives
    [Ok(Ok([]))] without resolving anything; a domain error of the list is
    returned as [EdgeError::IdListError]; a transaction error of the list,
    or of a member's resolution after the earlier members resolved, is
    returned as the outer error and stops the call there. *)
Theorem neighbourhoods_edge_cases env sc vertex_id schema_id ed t :
  let vf := as_field env ed in
  (forall t0, id_list_all env vertex_id vf schema_id t = (Ok (Ok []), t0) ->
   gt_neighbourhoods env sc vertex_id schema_id ed t = (Ok (Ok []), t0)) /\
  (forall e t0, id_list_all env vertex_id vf schema_id t = (Ok (Err e), t0) ->
   gt_neighbourhoods env sc vertex_id schema_id ed t = (Ok (Err (IdListError e)), t0)) /\
  (forall te t0, id_list_all env vertex_id vf schema_id t = (Err te, t0) ->
   gt_neighbourhoods env sc vertex_id schema_id ed t = (Err te, t0)) /\
  (forall ids pre x rest es t0 t1 te t2,
     id_list_all env vertex_id vf schema_id t = (Ok (Ok ids), t0) ->
     ids = pre ++ x :: rest ->
     resolves_in_order env vertex_id vf schema_id sc pre es t0 t1 ->
     edge_from_id env vertex_id vf schema_id sc x t1 = (Err te, t2) ->
     gt_neighbourhoods env sc vertex_id schema_id ed t = (Err te, t2)).
Proof.
  intros vf. unfold gt_neighbourhoods, try_txn, bind. fold vf.
  split; [|split; [|split]].
  - intros t0 H. rewrite H. reflexivity.
  - intros e t0 H. rewrite H. reflexivity.
  - intros te t0 H. rewrite H. reflexivity.
  - intros ids pre x rest es t0 t1 te t2 H -> Hpre Hx. rewrite H.
    apply (resolve_edges_first_txn_error env _ _ _ sc pre x rest es t0 t1 te t2
             Hpre Hx).
Qed.

Lemma neighbourhoods_edge_cases_witness :
  id_list_all env_empty_list id3 (as_field env_empty_list Inbound) 5 t0 =
    (Ok (Ok []), t0) /\
  gt_neighbourhoods env_empty_list sc0 id3 5 Inbound t0 = (Ok (Ok []), t0).
Proof.
  destruct (neighbourhoods_edge_cases env_empty_list sc0 id3 5 Inbound t0)
    as (H & _).
  split; [reflexivity|]. apply H. reflexivity.
Defined.



Lemma check_schema_registers env id name fields sc sc' :
  (forall s c c', new_schema_with_id env s c = (Ok tt, c') ->
     get_neb_schema c' (schema_id s) <> None /\
     (forall i, get_neb_schema c i <> None -> get_neb_schema c' i <> None)) ->
  check_schema env id name fields sc = (Ok tt, sc') ->
  get_neb_schema sc' id <> None /\
  (forall i, get_neb_schema sc i <> None -> get_neb_schema sc' i <> None).
Proof.
  intros Hreg. unfold check_schema.
  destruct (get_neb_schema sc id) as [s|] eqn:Hs.
  - intros H. injection H as <-. rewrite Hs. split; [discriminate | auto].
  - destruct (new_schema_with_id env (Schema_new_with_id id name None fields) sc)
      as [r sc1] eqn:Hr.
    destruct r as [[]|e]; intros H;
      [injection H as <-; exact (Hreg _ _ _ Hr) | discriminate H].
Qed.

(** [Graph::new] is idempotent when a successful registration makes the
    schema visible in the catalog and keeps the ones already there: after a
    successful construction both built-in Id List schemas are present, and
    constructing again on the resulting catalog succeeds without changing
    it. *)
Theorem graph_new_idempotent env schemas g s1 :
  (forall s c c', new_schema_with_id env s c = (Ok tt, c') ->
     get_neb_schema c' (schema_id s) <> None /\
     (forall i, get_neb_schema c i <> None -> get_neb_schema c' i <> None)) ->
  graph_new env schemas = (Ok g, s1) ->
  get_neb_schema s1 (ID_LIST_SCHEMA_ID env) <> None /\
  get_neb_schema s1 (TYPE_LIST_SCHEMA_ID env) <> None /\
  graph_new env s1 = (Ok (mkGraph s1), s1).
Proof.
  intros Hreg. unfold graph_new, check_base_schemas.
  destruct (check_schema env (ID_LIST_SCHEMA_ID env) "_NEB_ID_LIST"
              (ID_LINKED_LIST env) schemas) as [[[]|e] sa] eqn:H1;
    [|intros H; discriminate H].
  destruct (check_schema env (TYPE_LIST_SCHEMA_ID env) "_NEB_TYPE_ID_LIST"
              (ID_TYPE_LIST env) sa) as [[[]|e] sb] eqn:H2;
    [|intros H; discriminate H].
  intros H. injection H as _ <-.
  destruct (check_schema_registers env _ _ _ _ _ Hreg H1) as [Ha _].
  destruct (check_schema_registers env _ _ _ _ _ Hreg H2) as [Hb Hpres].
  specialize (Hpres _ Ha).
  split; [exact Hpres|]. split; [exact Hb|].
  unfold check_schema.
  destruct (get_neb_schema sb (ID_LIST_SCHEMA_ID env)); [|contradiction].
  destruct (get_neb_schema sb (TYPE_LIST_SCHEMA_ID env)); [|contradiction].
  reflexivity.
Qed.

Lemma graph_new_idempotent_witness :
  graph_new env0 sc_empty =
    (Ok (mkGraph (snd (graph_new env0 sc_empty))), snd (graph_new env0 sc_empty)) /\
  graph_new env0 (snd (graph_new env0 sc_empty)) =
    (Ok (mkGraph (snd (graph_new env0 sc_empty))), snd (graph_new env0 sc_empty)).
Proof.
  assert (Hreg : forall s c c', new_schema_with_id env0 s c = (Ok tt, c') ->
     get_neb_schema c' (schema_id s) <> None /\
     (forall i, get_neb_schema c i <> None -> get_neb_schema c' i <> None)).
  { intros s c c' H. simpl in H. injection H as <-.
    unfold get_neb_schema; simpl. rewrite Nat.eqb_refl.
    split; [discriminate|].
    intros i Hi. destruct (Nat.eqb i (schema_id s)); [discriminate | exact Hi]. }
  assert (Hnew : graph_new env0 sc_empty =
    (Ok (mkGraph (snd (graph_new env0 sc_empty))), snd (graph_new env0 sc_empty)))
    by reflexivity.
  split; [exact Hnew|].
  destruct (graph_new_idempotent env0 sc_empty _ _ Hreg Hnew) as (_ & _ & H).
  exact H.
Defined.
